(* ===================================================================== *)
(* CoreTextBCI: testing_tensorflow_linear_regression.py                   *)
(*                                                                        *)
(* A shallow embedding of the regression script and the properties its    *)
(* specification states about it.  Python integers are Z, binary64        *)
(* numbers (where their rounding decides a result) are the Standard       *)
(* Library's spec_float, tensors and arrays whose values are only moved   *)
(* around are sequences of rows, and the numerical pipeline (scaling,     *)
(* affine layers, squared error) is stated in exact arithmetic over an    *)
(* ordered field, of which the script's floats are the rounded image.     *)
(* ===================================================================== *)

From HB Require Import structures.
From mathcomp Require Import ssreflect ssrfun ssrbool eqtype ssrnat seq div.
From mathcomp Require Import choice fintype bigop order.
From mathcomp Require Import ssralg ssrnum matrix rat.
From Stdlib Require Import ZArith Lia SpecFloat.

Set Implicit Arguments.
Unset Strict Implicit.
Unset Printing Implicit Defensive.

(* ===================================================================== *)
(* Part I. The model                                                      *)
(* ===================================================================== *)

(* --------------------------------------------------------------------- *)
(* Python runtime: exceptions, integers, range                            *)
(* --------------------------------------------------------------------- *)

Module Py.

Inductive exn : Type :=
| ZeroDivisionError
| IndexError
| NameError
| ValueError
| OverflowError.

Inductive result (A : Type) : Type :=
| Ok (a : A)
| Raise (e : exn).

Arguments Ok {A} a.
Arguments Raise {A} e.

Definition bind {A B : Type} (m : result A) (k : A -> result B) : result B :=
  match m with
  | Ok a => k a
  | Raise e => Raise e
  end.

Definition is_ok {A : Type} (m : result A) : bool :=
  if m is Ok _ then true else false.

(* a // b on int: floor division, ZeroDivisionError on a zero divisor.
   Z.div rounds towards minus infinity, as Python does. *)
Definition floordiv (a b : Z) : result Z :=
  if (b =? 0)%Z then Raise ZeroDivisionError else Ok (a / b)%Z.

(* a % b on int: the remainder has the sign of the divisor (Z.modulo),
   ZeroDivisionError on a zero divisor. *)
Definition mod_ (a b : Z) : result Z :=
  if (b =? 0)%Z then Raise ZeroDivisionError else Ok (a mod b)%Z.

(* range(n): 0, 1, ..., n-1; empty when n <= 0. *)
Definition range (n : Z) : seq Z :=
  [seq Z.of_nat k | k <- iota 0 (Z.to_nat n)].

(* `not v` on an int: true exactly on 0. *)
Definition not_ (v : Z) : bool := (v =? 0)%Z.

(* t[index] along the first axis of an array or tensor with rows `t`:
   a negative index counts from the end, anything outside
   -len <= index < len raises IndexError. *)
Definition getitem {A : Type} (t : seq A) (index : Z) : result A :=
  let n := Z.of_nat (size t) in
  let k := if (index <? 0)%Z then (index + n)%Z else index in
  if ((0 <=? k) && (k <? n))%Z
  then (if ohead (drop (Z.to_nat k) t) is Some r then Ok r else Raise IndexError)
  else Raise IndexError.

End Py.

Notation "x <- m ;; k" := (Py.bind m (fun x => k))
  (at level 61, m at next level, right associativity).

(* --------------------------------------------------------------------- *)
(* binary64: the float of Python and of NumPy's float64                   *)
(* --------------------------------------------------------------------- *)

Module Float64.

Definition prec : Z := 53%Z.
Definition emax : Z := 1024%Z.

Definition float : Type := spec_float.

(* float(n) for an int n: rounded to nearest even. *)
Definition of_int (n : Z) : float :=
  match n with
  | Z0 => S754_zero false
  | Zpos p => binary_normalize prec emax (Zpos p) 0 false
  | Zneg p => binary_normalize prec emax (Zpos p) 0 true
  end.

(* The float denoted by the decimal literal num / 10^digits, e.g. 0.33 is
   literal 33 2.  Reading a literal rounds its exact value to the nearest
   float; so does the division of two exactly represented integers. *)
Definition literal (num : Z) (digits : nat) : float :=
  SFdiv prec emax (of_int num) (of_int (10 ^ Z.of_nat digits)%Z).

Definition mul (x y : float) : float := SFmul prec emax x y.

(* math.ceil(x): the least int not below x; ValueError on nan,
   OverflowError on an infinity. *)
Definition ceil (x : float) : Py.result Z :=
  match x with
  | S754_zero _ => Py.Ok 0%Z
  | S754_infinity _ => Py.Raise Py.OverflowError
  | S754_nan => Py.Raise Py.ValueError
  | S754_finite s m e =>
      let v := if s then Zneg m else Zpos m in
      match e with
      | Z0 => Py.Ok v
      | Zpos p => Py.Ok (v * 2 ^ Zpos p)%Z
      | Zneg p => Py.Ok (- ((- v) / 2 ^ Zpos p))%Z
      end
  end.

(* math.floor(x). *)
Definition floor (x : float) : Py.result Z :=
  match x with
  | S754_zero _ => Py.Ok 0%Z
  | S754_infinity _ => Py.Raise Py.OverflowError
  | S754_nan => Py.Raise Py.ValueError
  | S754_finite s m e =>
      let v := if s then Zneg m else Zpos m in
      match e with
      | Z0 => Py.Ok v
      | Zpos p => Py.Ok (v * 2 ^ Zpos p)%Z
      | Zneg p => Py.Ok (v / 2 ^ Zpos p)%Z
      end
  end.

Definition ltb (x y : float) : bool := SFltb x y.

End Float64.

(* --------------------------------------------------------------------- *)
(* Script configuration (the literals of the source)                      *)
(* --------------------------------------------------------------------- *)

Module Config.

Definition n_samples : Z := 1000%Z.
Definition n_features : Z := 10%Z.
(* test_size=0.33 *)
Definition test_size : Float64.float := Float64.literal 33 2.
Definition batch_size : Z := 64%Z.
Definition hidden_layers : nat := 50.
Definition output_dim : nat := 1.
Definition epochs : Z := 1000%Z.

End Config.

(* --------------------------------------------------------------------- *)
(* sklearn.model_selection.train_test_split: the sizes of the two parts   *)
(* --------------------------------------------------------------------- *)

Module Split.

(** Modelled from the spec: train_test_split belongs to scikit-learn and is
    not part of the repository's sources.  The spec says the configured
    test fraction determines the split size and that the two row counts
    sum to the total.  The sizing rule written here is the library's: with
    a float test_size and no train_size, n_test = ceil(test_size *
    n_samples) in float arithmetic and n_train = n_samples - n_test; a
    fraction outside (0, 1) or an empty train set is a ValueError. *)
Definition split_sizes (n_samples : Z) (test_size : Float64.float)
  : Py.result (Z * Z) :=
  if ~~ (Float64.ltb (Float64.of_int 0) test_size
         && Float64.ltb test_size (Float64.of_int 1))
  then Py.Raise Py.ValueError
  else
    n_test <- Float64.ceil (Float64.mul test_size (Float64.of_int n_samples)) ;;
    let n_train := (n_samples - n_test)%Z in
    if (n_train <=? 0)%Z then Py.Raise Py.ValueError
    else Py.Ok (n_train, n_test).

(* a[idx] for a list of row indices: the rows of `a` at those indices. *)
Definition take_rows {C : Type} (a : seq C) (idx : seq nat) : seq C :=
  pmap (fun i => ohead (drop i a)) idx.

(* The rows handed to the two parts: a permutation of the row indices
   (drawn from the seed) is cut after n_test entries; the test part takes
   the first n_test of them and the train part the following n_train. *)
Definition train_test_split {A B : Type} (perm : seq nat)
    (X : seq A) (y : seq B) (test_size : Float64.float)
  : Py.result (seq A * seq A * seq B * seq B) :=
  if size X != size y then Py.Raise Py.ValueError
  else
    sz <- split_sizes (Z.of_nat (size X)) test_size ;;
    let n_test := Z.to_nat sz.2 in
    let n_train := Z.to_nat sz.1 in
    let test_idx := take n_test perm in
    let train_idx := take n_train (drop n_test perm) in
    Py.Ok (take_rows X train_idx, take_rows X test_idx,
           take_rows y train_idx, take_rows y test_idx).

End Split.

(* --------------------------------------------------------------------- *)
(* sklearn.datasets.make_regression and ndarray.reshape                   *)
(* --------------------------------------------------------------------- *)

Module Datasets.

Section MakeRegression.

Variable F : Type.

(* The pseudo-random draws behind the generated values: they depend on the
   seed and the noise level, not on anything the script computes. *)
Variable draw_X : nat -> nat -> F.
Variable draw_y : nat -> F.

(** Modelled from the spec: make_regression belongs to scikit-learn and is
    not part of the repository's sources.  The spec's data model gives its
    result: a feature matrix with one row per sample and one column per
    feature, and a one-dimensional target vector with one entry per
    sample. *)
Definition make_regression (n_samples n_features : Z) : seq (seq F) * seq F :=
  ([seq [seq draw_X i j | j <- iota 0 (Z.to_nat n_features)]
        | i <- iota 0 (Z.to_nat n_samples)],
   [seq draw_y i | i <- iota 0 (Z.to_nat n_samples)]).

(* a.reshape(r, c) on a one-dimensional array: at most the first length may
   be -1, and is then inferred from the size; the lengths must multiply to
   the size of the array, otherwise ValueError.  The entries keep their
   order and are cut into r rows of c entries. *)
Definition reshape2 (a : seq F) (r c : Z) : Py.result (seq (seq F)) :=
  let n := Z.of_nat (size a) in
  if (c <? 0)%Z || (r <? -1)%Z then Py.Raise Py.ValueError
  else
    rows <- (if (r =? -1)%Z
             then (if (c =? 0)%Z then Py.Raise Py.ValueError
                   else if (n mod c =? 0)%Z then Py.Ok (n / c)%Z
                   else Py.Raise Py.ValueError)
             else Py.Ok r) ;;
    if (rows * c =? n)%Z
    then Py.Ok (reshape (nseq (Z.to_nat rows) (Z.to_nat c)) a)
    else Py.Raise Py.ValueError.

End MakeRegression.

End Datasets.

(* --------------------------------------------------------------------- *)
(* sklearn.preprocessing.MinMaxScaler, in exact arithmetic                *)
(* --------------------------------------------------------------------- *)

Module MinMaxScaler.

Section Scaler.

Variable F : realFieldType.

Local Open Scope ring_scope.

(* The fitted attributes, one entry per feature (column). *)
Record t (d : nat) : Type := Fitted {
  data_min_ : 'rV[F]_d;
  data_max_ : 'rV[F]_d;
  data_range_ : 'rV[F]_d;
  scale_ : 'rV[F]_d;
  min_ : 'rV[F]_d
}.

(* feature_range=(0, 1), the default the script leaves in place. *)
Definition feature_range : F * F := (0, 1).

(* A feature whose observed range is zero is scaled by 1 instead. *)
Definition handle_zeros_in_scale (r : F) : F := if r == 0 then 1 else r.

(* Column-wise minimum and maximum of an array with at least one row. *)
Definition column_min (n d : nat) (X : 'M[F]_(n.+1, d)) : 'rV[F]_d :=
  \row_j \big[Order.min/X ord0 j]_i X i j.

Definition column_max (n d : nat) (X : 'M[F]_(n.+1, d)) : 'rV[F]_d :=
  \row_j \big[Order.max/X ord0 j]_i X i j.

(** Modelled from the spec: MinMaxScaler belongs to scikit-learn and is not
    part of the repository's sources.  The spec's glossary defines min-max
    scaling as the linear transform mapping the observed value range to
    [0,1], kept to invert predictions later.  The attributes are the
    library's: scale_ = (hi - lo) / range and min_ = lo - data_min *
    scale_ per feature, with (lo, hi) = feature_range. *)
Definition fit_rows (n d : nat) (X : 'M[F]_(n.+1, d)) : t d :=
  let dmin := column_min X in
  let dmax := column_max X in
  let drange := dmax - dmin in
  let scale := \row_j ((feature_range.2 - feature_range.1)
                       / handle_zeros_in_scale (drange 0 j)) in
  let min := \row_j (feature_range.1 - dmin 0 j * scale 0 j) in
  Fitted dmin dmax drange scale min.


(* X *= scale_; X += min_ (broadcast along the rows). *)
Definition transform (n d : nat) (s : t d) (X : 'M[F]_(n, d)) : 'M[F]_(n, d) :=
  \matrix_(i, j) (X i j * scale_ s 0 j + min_ s 0 j).

(* X -= min_; X /= scale_. *)
Definition inverse_transform (n d : nat) (s : t d) (X : 'M[F]_(n, d))
  : 'M[F]_(n, d) :=
  \matrix_(i, j) ((X i j - min_ s 0 j) / scale_ s 0 j).


End Scaler.

End MinMaxScaler.

(* --------------------------------------------------------------------- *)
(* torch.nn.Linear and the LinearRegression module of the script          *)
(* --------------------------------------------------------------------- *)

Module Nn.

Section Layers.

Variable R : comNzRingType.

Local Open Scope ring_scope.

(* nn.Linear(in_features, out_features): weight of shape (out, in) and a
   bias of length out. *)
Record Linear (in_features out_features : nat) : Type := MkLinear {
  weight : 'M[R]_(out_features, in_features);
  bias : 'rV[R]_out_features
}.

(* The layer applied to a batch, one sample per row: x W^T + b, the bias
   being added to every row. *)
Definition linear (m n : nat) (l : Linear m n) (B : nat) (x : 'M[R]_(B, m))
  : 'M[R]_(B, n) :=
  x *m (weight l)^T + \matrix_(i, j) bias l 0 j.

Record LinearRegression (input_dim hidden_dim output_dim : nat) : Type :=
  MkLinearRegression {
    input_to_hidden : Linear input_dim hidden_dim;
    hidden_layer_1 : Linear hidden_dim hidden_dim;
    hidden_layer_2 : Linear hidden_dim hidden_dim;
    hidden_to_output : Linear hidden_dim output_dim
  }.

(* LinearRegression.forward: the four layers in sequence, nothing applied
   in between. *)
Definition forward (i h o : nat) (self : LinearRegression i h o)
    (B : nat) (x : 'M[R]_(B, i)) : 'M[R]_(B, o) :=
  let x := linear (input_to_hidden self) x in
  let x := linear (hidden_layer_1 self) x in
  let x := linear (hidden_layer_2 self) x in
  let x := linear (hidden_to_output self) x in
  x.

End Layers.

End Nn.

(* --------------------------------------------------------------------- *)
(* class Data(Dataset)                                                    *)
(* --------------------------------------------------------------------- *)

Module DataSet.

Section Data.

(* Entries of a float64 array and of a float32 tensor, and the rounding
   X.astype(np.float32) applies to each entry. *)
Variables F64 F32 : Type.
Variable astype_float32 : F64 -> F32.

(* An array with at least one axis, as the sequence of its rows. *)
Definition ndarray : Type := seq (seq F64).
Definition tensor : Type := seq (seq F32).

(* torch.from_numpy(a.astype(np.float32)) *)
Definition from_numpy_float32 (a : ndarray) : tensor :=
  [seq [seq astype_float32 v | v <- r] | r <- a].

(* t.shape[0] *)
Definition shape0 (t : tensor) : Z := Z.of_nat (size t).

Record Data : Type := MkData {
  X : tensor;
  y : tensor;
  len : Z
}.

Definition __init__ (X0 y0 : ndarray) : Data :=
  let X1 := from_numpy_float32 X0 in
  let y1 := from_numpy_float32 y0 in
  MkData X1 y1 (shape0 X1).

Definition __getitem__ (self : Data) (index : Z)
  : Py.result (seq F32 * seq F32) :=
  x <- Py.getitem (X self) index ;;
  t <- Py.getitem (y self) index ;;
  Py.Ok (x, t).

Definition __len__ (self : Data) : Z := len self.

End Data.

End DataSet.

(* --------------------------------------------------------------------- *)
(* torch.utils.data.DataLoader over a map-style dataset                   *)
(* --------------------------------------------------------------------- *)

Module DataLoader.

Section Loader.

(* What dataset[index] returns: a pair of a feature row and a target. *)
Variables Row Target : Type.
Variable getitem : Z -> Py.result (Row * Target).

(** Modelled from the spec: DataLoader belongs to PyTorch and is not part
    of the repository's sources; the spec names what it provides, the
    iteration over shuffled mini-batches of a fixed size.  The rule written
    here is the library's for the arguments the script passes
    (batch_size given, drop_last left at False): the indices the sampler
    yields are collected into a batch, a batch is handed out as soon as it
    holds batch_size indices, and what is left at the end is handed out as
    a last, shorter batch. *)
Definition batch_sampler (batch_size : nat) (sampler : seq Z) : seq (seq Z) :=
  let '(batches, batch) :=
    foldl (fun acc idx =>
             let '(batches, batch) := acc in
             let batch := rcons batch idx in
             if size batch == batch_size then (rcons batches batch, [::])
             else (batches, batch))
          ([::], [::]) sampler in
  if batch is [::] then batches else rcons batches batch.

(* [dataset[idx] for idx in batch]: the first exception ends the fetch. *)
Fixpoint fetch (batch : seq Z) : Py.result (seq (Row * Target)) :=
  match batch with
  | [::] => Py.Ok [::]
  | idx :: batch' =>
      sample <- getitem idx ;;
      samples <- fetch batch' ;;
      Py.Ok (sample :: samples)
  end.

(* The default collate function on pairs: the rows stacked, the targets
   stacked. *)
Definition collate (samples : seq (Row * Target)) : seq Row * seq Target :=
  (unzip1 samples, unzip2 samples).

Fixpoint collect (batches : seq (seq Z))
  : Py.result (seq (seq Row * seq Target)) :=
  match batches with
  | [::] => Py.Ok [::]
  | batch :: batches' =>
      samples <- fetch batch ;;
      rest <- collect batches' ;;
      Py.Ok (collate samples :: rest)
  end.

(* One pass over the loader, for the order of indices the sampler drew:
   the batches it yields, or the exception that ends the iteration. *)
Definition iterate (batch_size : nat) (sampler : seq Z)
  : Py.result (seq (seq Row * seq Target)) :=
  collect (batch_sampler batch_size sampler).

End Loader.

End DataLoader.

(* --------------------------------------------------------------------- *)
(* The training loop and its progress lines                               *)
(* --------------------------------------------------------------------- *)

Module Training.

(* The test of the `if` that guards the print. *)
Definition report_condition (epochs epoch : Z) : Py.result bool :=
  d <- Py.floordiv epochs 10 ;;
  r <- Py.mod_ (epoch + 1) d ;;
  Py.Ok (Py.not_ r).

Section Loop.

(* Model parameters, a mini-batch and the float of loss.item(). *)
Variables Model Batch Num : Type.
Variable zero : Num.
Variable add : Num -> Num -> Num.
Variable div_int : Num -> Z -> Num.

(* One pass of the inner loop body: forward, criterion, zero_grad,
   backward, optimizer.step; gives the updated parameters and
   loss.item(). *)
Variable train_step : Model -> Batch -> Model * Num.

(* The batches the loader yields in a given epoch (it reshuffles). *)
Variable trainloader : Z -> seq Batch.

(* What one printed line reports. *)
Record line : Type := Line {
  epoch_number : Z;
  batches_per_epoch : Z;
  average_loss : Num
}.

(* The variables that live across epochs: the parameters, the loop
   variable i (unbound until a batch was seen) and the console. *)
Record state : Type := State {
  model : Model;
  i : option Z;
  console : seq line
}.

Definition enumerate (A : Type) (s : seq A) : seq (Z * A) :=
  zip (Py.range (Z.of_nat (size s))) s.

(* for i, (inputs, labels) in enumerate(trainloader): ... *)
Definition run_batches (m : Model) (i0 : option Z) (bs : seq Batch)
  : Model * option Z * Num :=
  foldl (fun acc kb =>
           let '(m1, _, running_loss) := acc in
           let '(m2, loss) := train_step m1 kb.2 in
           (m2, Some kb.1, add running_loss loss))
        (m, i0, zero) (enumerate bs).

(* The body of `for epoch in range(epochs)`. *)
Definition epoch_body (epochs : Z) (st : state) (epoch : Z) : Py.result state :=
  let '(m, i1, running_loss) := run_batches (model st) (i st) (trainloader epoch) in
  c <- report_condition epochs epoch ;;
  if c then
    match i1 with
    | Some iv =>
        Py.Ok (State m i1
                 (rcons (console st)
                    (Line (epoch + 1) (iv + 1) (div_int running_loss (iv + 1)))))
    | None => Py.Raise Py.NameError
    end
  else Py.Ok (State m i1 (console st)).

Fixpoint for_each (body : state -> Z -> Py.result state) (st : state)
    (es : seq Z) : Py.result state :=
  match es with
  | [::] => Py.Ok st
  | e :: es' => st' <- body st e ;; for_each body st' es'
  end.

Definition train (epochs : Z) (m0 : Model) : Py.result state :=
  for_each (epoch_body epochs) (State m0 None [::]) (Py.range epochs).

End Loop.

End Training.

(* --------------------------------------------------------------------- *)
(* The evaluation loop, in exact arithmetic                               *)
(* --------------------------------------------------------------------- *)

Module Evaluation.

Section Eval.

Variable F : realFieldType.

Local Open Scope ring_scope.

(* F.mse_loss(input, target) with the default reduction: the mean of the
   squared differences over all entries. *)
Definition mse_loss (n d : nat) (input target : 'M[F]_(n, d)) : F :=
  (\sum_i \sum_j (input i j - target i j) ^+ 2) / (n * d)%:R.

(* One test batch: its inputs and labels. *)
Record batch (input_dim : nat) : Type := Batch {
  rows : nat;
  inputs : 'M[F]_(rows, input_dim);
  labels : 'M[F]_(rows, 1)
}.

(* loss = 0; for each batch: loss += mse_loss(inverse(predictions),
   inverse(labels)); the figure printed is loss / (i + 1). *)
Definition accumulated_loss (i h : nat) (net : Nn.LinearRegression F i h 1)
    (y_scaler : MinMaxScaler.t F 1) (testloader : seq (batch i)) : F :=
  foldl (fun loss b =>
           let predictions := Nn.forward net (inputs b) in
           let labels := MinMaxScaler.inverse_transform y_scaler (labels b) in
           let predictions := MinMaxScaler.inverse_transform y_scaler predictions in
           loss + mse_loss predictions labels)
        0 testloader.

Definition reported_mse (i h : nat) (net : Nn.LinearRegression F i h 1)
    (y_scaler : MinMaxScaler.t F 1) (testloader : seq (batch i)) : F :=
  accumulated_loss net y_scaler testloader / (size testloader)%:R.

End Eval.

End Evaluation.

(* ===================================================================== *)
(* Part II. Properties                                                    *)
(* ===================================================================== *)

(* --------------------------------------------------------------------- *)
(* Train/test split                                                       *)
(* --------------------------------------------------------------------- *)

Section SplitFacts.

(* 0.33 is not a binary fraction: the literal denotes the float just above
   33/100, and only the rounding of the product brings 330 back. *)
Lemma test_size_bits :
  Config.test_size = S754_finite false 5944751508129055 (-54).
Proof. by vm_compute. Qed.

Lemma test_size_above_33_percent :
  (33 * 2 ^ 54 < 100 * 5944751508129055)%Z.
Proof. by vm_compute. Qed.

Lemma product_rounds_to_330 :
  Float64.mul Config.test_size (Float64.of_int Config.n_samples)
  = Float64.of_int 330.
Proof. by vm_compute. Qed.

Lemma split_sizes_default :
  Split.split_sizes Config.n_samples Config.test_size = Py.Ok (670, 330)%Z.
Proof. by vm_compute. Qed.

Lemma size_take_rows (C : Type) (a : seq C) (idx : seq nat) :
  all (fun k => k < size a) idx -> size (Split.take_rows a idx) = size idx.
Proof.
rewrite /Split.take_rows.
elim: idx => [|k idx IH] //= /andP [Hk Hidx].
case E: (drop k a) => [|x s] /=; last by rewrite IH.
have := size_drop k a; rewrite E /= => /esym /eqP.
by rewrite subn_eq0 leqNgt Hk.
Qed.

Lemma perm_iota_bound (n : nat) (perm : seq nat) :
  perm_eq perm (iota 0 n) -> all (fun k => k < n) perm.
Proof.
move=> Hp; apply/allP => k; rewrite (perm_mem Hp) mem_iota add0n.
by case/andP.
Qed.

(** C2. Splitting a dataset of 1000 rows with test_size=0.33 gives a test
    part of exactly 330 rows and a train part of exactly 670 rows, for the
    features and for the targets, whatever permutation the seed draws; the
    two row counts add up to the 1000 samples. *)
Theorem split_1000_rows (A B : Type) (X : seq A) (y : seq B) (perm : seq nat) :
  size X = 1000 -> size y = 1000 -> perm_eq perm (iota 0 1000) ->
  exists X_train X_test y_train y_test,
    [/\ Split.train_test_split perm X y Config.test_size
        = Py.Ok (X_train, X_test, y_train, y_test),
        size X_test = 330 /\ size y_test = 330,
        size X_train = 670 /\ size y_train = 670
      & size X_train + size X_test = 1000].
Proof.
move=> HX Hy Hp.
have Hsz : size perm = 1000 by rewrite (perm_size Hp) size_iota.
have Hall := perm_iota_bound Hp.
have Hte : all (fun k => k < 1000) (take 330 perm).
  by apply/allP => k /mem_take; move/allP: Hall; apply.
have Htr : all (fun k => k < 1000) (take 670 (drop 330 perm)).
  by apply/allP => k /mem_take /mem_drop; move/allP: Hall; apply.
have Sz : Split.split_sizes (Z.of_nat (size X)) Config.test_size
          = Py.Ok (670, 330)%Z by rewrite HX; vm_compute.
rewrite /Split.train_test_split Sz HX Hy eqxx /=.
do 4![eexists]; split; first by [].
- by rewrite !size_take_rows ?HX ?Hy // size_take Hsz.
- by rewrite !size_take_rows ?HX ?Hy // size_take size_drop Hsz.
- by rewrite !size_take_rows ?HX ?Hy // !size_take size_drop Hsz.
Qed.

Lemma split_1000_rows_witness :
  exists X_train X_test y_train y_test,
    [/\ Split.train_test_split (iota 0 1000) (iota 0 1000) (nseq 1000 tt)
          Config.test_size
        = Py.Ok (X_train, X_test, y_train, y_test),
        size X_test = 330 /\ size y_test = 330,
        size X_train = 670 /\ size y_train = 670
      & size X_train + size X_test = 1000].
Proof.
apply: split_1000_rows.
- by rewrite size_iota.
- by rewrite size_nseq.
- exact: perm_refl.
Defined.

End SplitFacts.
(* --------------------------------------------------------------------- *)
(* The generated dataset                                                  *)
(* --------------------------------------------------------------------- *)

Section DatasetFacts.

Variable F : Type.
Variable draw_X : nat -> nat -> F.
Variable draw_y : nat -> F.

Lemma reshape_singletons (a : seq F) :
  reshape (nseq (size a) 1) a = [seq [:: v] | v <- a].
Proof. by elim: a => [|v a IH] //=; rewrite take0 drop0 IH. Qed.

(* y.reshape(-1, 1) never fails and puts each entry in a row of its own. *)
Lemma reshape2_column (a : seq F) :
  Datasets.reshape2 a (-1) 1 = Py.Ok [seq [:: v] | v <- a].
Proof.
rewrite /Datasets.reshape2 /= Z.mod_1_r /= Z.div_1_r Z.mul_1_r Z.eqb_refl.
by rewrite Nat2Z.id reshape_singletons.
Qed.

Lemma make_regression_rows (n_samples n_features : Z) :
  size (Datasets.make_regression draw_X draw_y n_samples n_features).1
  = Z.to_nat n_samples.
Proof. by rewrite /= size_map size_iota. Qed.

Lemma make_regression_targets (n_samples n_features : Z) :
  size (Datasets.make_regression draw_X draw_y n_samples n_features).2
  = Z.to_nat n_samples.
Proof. by rewrite /= size_map size_iota. Qed.

Lemma singleton_rows (a : seq F) :
  all (fun r => size r == 1) [seq [:: v] | v <- a].
Proof. by elim: a. Qed.

(** C8. For every requested size, the generated feature matrix has as many
    rows as the target vector has entries, and reshaping the targets to a
    single column keeps that row count; with the script's
    n_samples=1000, n_features=10 both counts are 1000. *)
Theorem generated_rows_match (n_samples n_features : Z) :
  let D := Datasets.make_regression draw_X draw_y n_samples n_features in
  let D0 := Datasets.make_regression draw_X draw_y
              Config.n_samples Config.n_features in
  [/\ size D.1 = size D.2,
      exists2 y1, Datasets.reshape2 D.2 (-1) 1 = Py.Ok y1
                  & size y1 = size D.1 /\ all (fun r => size r == 1) y1,
      size D0.1 = 1000 /\ size D0.2 = 1000
    & exists2 y1, Datasets.reshape2 D0.2 (-1) 1 = Py.Ok y1 & size y1 = 1000].
Proof.
move=> D D0; split.
- by rewrite make_regression_rows make_regression_targets.
- exists [seq [:: v] | v <- D.2]; first exact: reshape2_column.
  rewrite size_map make_regression_rows make_regression_targets.
  by split=> //; exact: singleton_rows.
- by rewrite make_regression_rows make_regression_targets.
- exists [seq [:: v] | v <- D0.2]; first exact: reshape2_column.
  by rewrite size_map make_regression_targets.
Qed.

End DatasetFacts.

(* --------------------------------------------------------------------- *)
(* Indexing                                                               *)
(* --------------------------------------------------------------------- *)

Section GetItem.

Variable A : Type.

Lemma ohead_drop (x0 : A) (t : seq A) (k : nat) :
  k < size t -> ohead (drop k t) = Some (nth x0 t k).
Proof. by move=> Hk; rewrite (drop_nth x0). Qed.

Lemma getitem_in_range (x0 : A) (t : seq A) (index : Z) :
  (0 <= index < Z.of_nat (size t))%Z ->
  Py.getitem t index = Py.Ok (nth x0 t (Z.to_nat index)).
Proof.
move=> [Hlo Hhi]; rewrite /Py.getitem.
have -> : (index <? 0)%Z = false by apply/Z.ltb_ge.
have -> : (0 <=? index)%Z = true by apply/Z.leb_le.
have -> : (index <? Z.of_nat (size t))%Z = true by apply/Z.ltb_lt.
rewrite /= (ohead_drop x0) //.
by apply/ltP; lia.
Qed.

Lemma getitem_past_end (t : seq A) (index : Z) :
  (Z.of_nat (size t) <= index)%Z -> Py.getitem t index = Py.Raise Py.IndexError.
Proof.
move=> Hge; rewrite /Py.getitem.
have -> : (index <? 0)%Z = false by apply/Z.ltb_ge; lia.
have -> : (index <? Z.of_nat (size t))%Z = false by apply/Z.ltb_ge.
by rewrite andbF.
Qed.

End GetItem.

(* --------------------------------------------------------------------- *)
(* The Data container                                                     *)
(* --------------------------------------------------------------------- *)

Section DataFacts.

Variables F64 F32 : Type.
Variable astype_float32 : F64 -> F32.

Notation init := (DataSet.__init__ astype_float32).
Notation cast_row := (map astype_float32).

Lemma len_init (X0 y0 : DataSet.ndarray F64) :
  DataSet.__len__ (init X0 y0) = Z.of_nat (size X0).
Proof. by rewrite /DataSet.__len__ /= /DataSet.shape0 size_map. Qed.

(** C5, as amended. For a Data container built from arrays X and y where y
    has at least as many rows as X, __len__ is the number of rows of X,
    and for every index 0 <= i < len, __getitem__(i) is the pair of row i
    of X and row i of y (both converted to float32). *)
Theorem data_len_getitem (X0 y0 : DataSet.ndarray F64) (index : Z) :
  size X0 <= size y0 ->
  (0 <= index < DataSet.__len__ (init X0 y0))%Z ->
  DataSet.__len__ (init X0 y0) = Z.of_nat (size X0)
  /\ DataSet.__getitem__ (init X0 y0) index
     = Py.Ok (cast_row (nth [::] X0 (Z.to_nat index)),
              cast_row (nth [::] y0 (Z.to_nat index))).
Proof.
move=> /leP Hrows; rewrite len_init => Hidx; split=> //.
have Hk : Z.to_nat index < size X0 by apply/ltP; lia.
have Hk' : Z.to_nat index < size y0 by apply/ltP; move/ltP: Hk; lia.
have Hidy : (0 <= index < Z.of_nat (size y0))%Z.
  split; first by case: Hidx.
  apply: (Z.lt_le_trans _ _ _ (proj2 Hidx)).
  exact/Nat2Z.inj_le.
rewrite /DataSet.__getitem__ /= /DataSet.from_numpy_float32.
rewrite (getitem_in_range [::]); first by rewrite size_map.
rewrite (getitem_in_range [::]) /=; first by rewrite size_map.
by rewrite (nth_map [::]) // (nth_map [::]).
Qed.

(** C9. The constructor checks nothing about the row counts: for every X
    and y the container is built and __len__ is the row count of X; when
    y has fewer rows than X, the index len(y) passes the bound __len__
    gives, is a valid row of the feature tensor, and is out of range for
    the target tensor, so __getitem__ raises IndexError there. *)
Theorem data_no_row_check (X0 y0 : DataSet.ndarray F64) :
  DataSet.__len__ (init X0 y0) = Z.of_nat (size X0)
  /\ (size y0 < size X0 ->
      let d := init X0 y0 in
      let i := Z.of_nat (size y0) in
      [/\ (0 <= i < DataSet.__len__ d)%Z,
          Py.is_ok (Py.getitem (DataSet.X d) i),
          Py.getitem (DataSet.y d) i = Py.Raise Py.IndexError
        & DataSet.__getitem__ d i = Py.Raise Py.IndexError]).
Proof.
split; first exact: len_init.
move=> Hlt d i.
have Hy : Py.getitem (DataSet.y d) i = Py.Raise Py.IndexError.
  by apply: getitem_past_end; rewrite /d /= size_map /i; lia.
have Hx : Py.getitem (DataSet.X d) i
          = Py.Ok (nth [::] (DataSet.X d) (Z.to_nat i)).
  apply: getitem_in_range; rewrite /d /= size_map /i.
  by move/ltP: Hlt; lia.
split=> //.
- by rewrite len_init /i; move/ltP: Hlt; lia.
- by rewrite Hx.
- by rewrite /DataSet.__getitem__ Hx /= Hy.
Qed.

End DataFacts.

(** C5 as stated fails: two feature rows, one target row, index 1. *)
Lemma data_getitem_counterexample :
  let d := DataSet.__init__ (fun v : nat => v) [:: [:: 1]; [:: 2]] [:: [:: 7]] in
  [/\ DataSet.__len__ d = 2%Z, (0 <= 1 < DataSet.__len__ d)%Z
    & DataSet.__getitem__ d 1 = Py.Raise Py.IndexError].
Proof. by split=> //; vm_compute; split. Qed.

Lemma data_len_getitem_witness :
  DataSet.__len__ (DataSet.__init__ (fun v : nat => v.+1)
                     [:: [:: 1; 2]; [:: 3; 4]] [:: [:: 5]; [:: 6]; [:: 7]])
  = 2%Z
  /\ DataSet.__getitem__ (DataSet.__init__ (fun v : nat => v.+1)
                     [:: [:: 1; 2]; [:: 3; 4]] [:: [:: 5]; [:: 6]; [:: 7]]) 1
     = Py.Ok ([:: 4; 5], [:: 7]).
Proof.
apply: (@data_len_getitem nat nat (fun v => v.+1)
          [:: [:: 1; 2]; [:: 3; 4]] [:: [:: 5]; [:: 6]; [:: 7]] 1%Z).
- by [].
- by vm_compute; split.
Defined.

Lemma data_no_row_check_witness :
  let d := DataSet.__init__ (fun v : nat => v) [:: [:: 1]; [:: 2]] [:: [:: 7]] in
  DataSet.__len__ d = 2%Z /\ DataSet.__getitem__ d 1 = Py.Raise Py.IndexError.
Proof.
have [Hlen Hbad] :=
  @data_no_row_check nat nat (fun v => v) [:: [:: 1]; [:: 2]] [:: [:: 7]].
split; first exact: Hlen.
by have [] := Hbad isT.
Defined.

(* --------------------------------------------------------------------- *)
(* The reporting condition                                                *)
(* --------------------------------------------------------------------- *)

Section ReportFacts.

Lemma floordiv_10 (epochs : Z) : Py.floordiv epochs 10 = Py.Ok (epochs / 10)%Z.
Proof. by []. Qed.

Lemma report_condition_nonzero (epochs epoch : Z) :
  (epochs / 10 <> 0)%Z ->
  Training.report_condition epochs epoch
  = Py.Ok ((epoch + 1) mod (epochs / 10) =? 0)%Z.
Proof.
move=> /Z.eqb_neq Hd.
by rewrite /Training.report_condition floordiv_10 /= /Py.mod_ Hd.
Qed.

Lemma report_condition_zero (epochs epoch : Z) :
  (epochs / 10 = 0)%Z ->
  Training.report_condition epochs epoch = Py.Raise Py.ZeroDivisionError.
Proof.
move=> Hd.
by rewrite /Training.report_condition floordiv_10 /= /Py.mod_ Hd.
Qed.

Lemma divisor_zero_iff (epochs : Z) :
  (0 < epochs)%Z -> (epochs / 10 = 0 <-> epochs < 10)%Z.
Proof.
move=> Hpos; rewrite Z.div_small_iff //; lia.
Qed.

(** C10. Inside the loop (0 <= epoch < epochs) the condition
    (epoch + 1) % (epochs // 10) is evaluated without error exactly when
    epochs >= 10; below that the divisor epochs // 10 is 0 and the modulo
    raises ZeroDivisionError.  With epochs = 1000 the divisor is 100 and no
    epoch raises. *)
Theorem report_condition_defined (epochs epoch : Z) :
  (0 <= epoch < epochs)%Z ->
  [/\ Py.is_ok (Training.report_condition epochs epoch) <-> (10 <= epochs)%Z,
      (epochs < 10)%Z ->
      Py.floordiv epochs 10 = Py.Ok 0%Z
      /\ Training.report_condition epochs epoch = Py.Raise Py.ZeroDivisionError,
      Py.floordiv Config.epochs 10 = Py.Ok 100%Z
    & forall e : Z, Py.is_ok (Training.report_condition Config.epochs e)].
Proof.
move=> Hin.
have Hpos : (0 < epochs)%Z by lia.
have Hz := divisor_zero_iff Hpos.
split.
- split.
  + case: (Z.eq_dec (epochs / 10) 0) => [Hd|Hd]; last by lia.
    by rewrite report_condition_zero.
  + move=> Hge; rewrite report_condition_nonzero //; lia.
- move=> Hlt; have Hd : (epochs / 10 = 0)%Z by apply/Hz.
  by rewrite report_condition_zero // floordiv_10 Hd.
- by [].
- by move=> e; rewrite report_condition_nonzero.
Qed.

Lemma report_condition_defined_witness :
  Py.is_ok (Training.report_condition 1000 99) <-> (10 <= 1000)%Z.
Proof.
have H : (0 <= 99 < 1000)%Z by lia.
by case: (report_condition_defined H).
Defined.

End ReportFacts.

(* --------------------------------------------------------------------- *)
(* The training loop                                                      *)
(* --------------------------------------------------------------------- *)

Section TrainingFacts.

Variables Model Batch Num : Type.
Variable zero : Num.
Variable add : Num -> Num -> Num.
Variable div_int : Num -> Z -> Num.
Variable train_step : Model -> Batch -> Model * Num.
Variable trainloader : Z -> seq Batch.

Notation line := (Training.line Num).
Notation state := (Training.state Model Num).
Notation run_batches := (Training.run_batches zero add train_step).
Notation epoch_body :=
  (Training.epoch_body zero add div_int train_step trainloader).
Notation train := (Training.train zero add div_int train_step trainloader).

(* What the console shows of a line besides the loss. *)
Definition header (l : line) : Z * Z :=
  (Training.epoch_number l, Training.batches_per_epoch l).

(* Does epoch `e` of a run of `epochs` epochs report? *)
Definition reports (epochs e : Z) : bool :=
  ((e + 1) mod (epochs / 10) =? 0)%Z.

Lemma fold_batches_index (bs : seq Batch) (a : nat) (m : Model)
    (i0 : option Z) (r : Num) :
  (foldl (fun acc kb =>
            let '(m1, _, running_loss) := acc in
            let '(m2, loss) := train_step m1 kb.2 in
            (m2, Some kb.1, add running_loss loss))
         (m, i0, r)
         (zip [seq Z.of_nat k | k <- iota a (size bs)] bs)).1.2
  = if bs is [::] then i0 else Some (Z.of_nat (a + size bs).-1).
Proof.
elim: bs a m i0 r => [|b bs IH] a m i0 r //.
rewrite [size _]/= [iota _ _]/= [map _ _]/= [zip _ _]/= [foldl _ _ _]/=.
case: (train_step m b) => m2 loss.
rewrite IH; case: bs {IH} => [|b' bs]; first by rewrite addn1.
by rewrite addSnnS.
Qed.

(* After the inner loop, i is the index of the last batch; it keeps its
   old value when the loader yields nothing. *)
Lemma run_batches_index (m : Model) (i0 : option Z) (bs : seq Batch) :
  (run_batches m i0 bs).1.2
  = if bs is [::] then i0 else Some (Z.of_nat (size bs).-1).
Proof.
rewrite /Training.run_batches /Training.enumerate /Py.range Nat2Z.id.
exact: fold_batches_index.
Qed.

Lemma for_each_console (epochs : Z) (es : seq Z) (st : state) :
  (epochs / 10 <> 0)%Z ->
  all (fun e => ~~ nilp (trainloader e)) es ->
  exists2 st' : state,
    Training.for_each (epoch_body epochs) st es = Py.Ok st'
    & [seq header l | l <- Training.console st']
      = [seq header l | l <- Training.console st]
        ++ [seq ((e + 1)%Z, Z.of_nat (size (trainloader e)))
               | e <- es & reports epochs e].
Proof.
move=> Hd; elim: es st => [|e es IH] st /=.
  by move=> _; exists st => //; rewrite cats0.
case/andP=> He Hes.
rewrite /Training.epoch_body.
have := run_batches_index (Training.model st) (Training.i st) (trainloader e).
case: (run_batches _ _ _) => [[m i1] rl] /= ->.
rewrite report_condition_nonzero // /= -/(reports epochs e).
case Hb: (trainloader e) He => [|b bs] // _.
case: (reports epochs e) => /=.
- set st1 := Training.State _ _ _.
  have [st' Hrun Hcons] := IH st1 Hes; exists st' => //.
  rewrite Hcons /st1 /= map_rcons -cats1 -catA /=.
  congr (_ ++ (_ :: _)); rewrite /header /=; congr pair.
  by rewrite Hb [size _]/= Nat2Z.inj_succ Z.add_1_r.
- set st1 := Training.State _ _ _.
  by have [st' Hrun Hcons] := IH st1 Hes; exists st'.
Qed.


End TrainingFacts.


(* --------------------------------------------------------------------- *)
(* Min-max scaling                                                        *)
(* --------------------------------------------------------------------- *)

Section ScalerFacts.

Import Order.TTheory GRing.Theory Num.Theory.

Variable F : realFieldType.

Local Open Scope ring_scope.

Notation fit_rows := (@MinMaxScaler.fit_rows F).
Notation transform := (@MinMaxScaler.transform F).
Notation inverse_transform := (@MinMaxScaler.inverse_transform F).

Lemma column_min_le (n d : nat) (X : 'M[F]_(n.+1, d)) (i : 'I_n.+1) (j : 'I_d) :
  MinMaxScaler.column_min X 0 j <= X i j.
Proof. by rewrite /MinMaxScaler.column_min mxE; exact: bigmin_le. Qed.

Lemma column_max_ge (n d : nat) (X : 'M[F]_(n.+1, d)) (i : 'I_n.+1) (j : 'I_d) :
  X i j <= MinMaxScaler.column_max X 0 j.
Proof.
rewrite /MinMaxScaler.column_max mxE.
exact: (bigmax_sup i).
Qed.

Lemma handle_zeros_neq0 (r : F) : MinMaxScaler.handle_zeros_in_scale r != 0.
Proof.
rewrite /MinMaxScaler.handle_zeros_in_scale.
by case: (eqVneq r 0) => // _; exact: oner_neq0.
Qed.

Lemma scale_fit (n d : nat) (X : 'M[F]_(n.+1, d)) (j : 'I_d) :
  MinMaxScaler.scale_ (fit_rows X) 0 j
  = (MinMaxScaler.handle_zeros_in_scale
       (MinMaxScaler.column_max X 0 j - MinMaxScaler.column_min X 0 j))^-1.
Proof.
by rewrite /MinMaxScaler.fit_rows /= !mxE /= subr0 mul1r.
Qed.

Lemma min_fit (n d : nat) (X : 'M[F]_(n.+1, d)) (j : 'I_d) :
  MinMaxScaler.min_ (fit_rows X) 0 j
  = - (MinMaxScaler.column_min X 0 j * MinMaxScaler.scale_ (fit_rows X) 0 j).
Proof.
by rewrite /MinMaxScaler.fit_rows /= !mxE /= sub0r.
Qed.

(* A fitted scale is never zero: a zero range is replaced by 1. *)
Lemma scale_neq0 (n d : nat) (X : 'M[F]_(n.+1, d)) (j : 'I_d) :
  MinMaxScaler.scale_ (fit_rows X) 0 j != 0.
Proof. by rewrite scale_fit invr_eq0; exact: handle_zeros_neq0. Qed.



Lemma transform_fit (n d : nat) (X : 'M[F]_(n.+1, d)) (i : 'I_n.+1) (j : 'I_d) :
  transform (fit_rows X) X i j
  = (X i j - MinMaxScaler.column_min X 0 j)
    / MinMaxScaler.handle_zeros_in_scale
        (MinMaxScaler.column_max X 0 j - MinMaxScaler.column_min X 0 j).
Proof.
by rewrite /MinMaxScaler.transform mxE min_fit scale_fit -mulNr -mulrDl.
Qed.




End ScalerFacts.

(* --------------------------------------------------------------------- *)
(* The forward pass                                                       *)
(* --------------------------------------------------------------------- *)

Section ForwardFacts.

Import GRing.Theory.

Variable R : comNzRingType.

Local Open Scope ring_scope.

(* The bias added to every row of a batch. *)
Definition broadcast (B n : nat) (b : 'rV[R]_n) : 'M[R]_(B, n) :=
  \matrix_(i, j) b 0 j.

Lemma linearE (m n : nat) (l : Nn.Linear R m n) (B : nat) (x : 'M[R]_(B, m)) :
  Nn.linear l x = x *m (Nn.weight l)^T + broadcast B (Nn.bias l).
Proof. by []. Qed.

Lemma broadcast_mul (B n p : nat) (b : 'rV[R]_n) (W : 'M[R]_(n, p)) :
  broadcast B b *m W = broadcast B (b *m W).
Proof.
apply/matrixP => i j; rewrite !mxE.
by apply: eq_bigr => k _; rewrite !mxE.
Qed.

Lemma broadcast_add (B n : nat) (b c : 'rV[R]_n) :
  broadcast B b + broadcast B c = broadcast B (b + c).
Proof. by apply/matrixP => i j; rewrite !mxE. Qed.

(* Two layers in sequence, as one layer. *)
Definition compose (m n p : nat) (l1 : Nn.Linear R m n) (l2 : Nn.Linear R n p)
  : Nn.Linear R m p :=
  Nn.MkLinear (Nn.weight l2 *m Nn.weight l1)
              (Nn.bias l1 *m (Nn.weight l2)^T + Nn.bias l2).

Lemma linear_compose (m n p : nat) (l1 : Nn.Linear R m n)
    (l2 : Nn.Linear R n p) (B : nat) (x : 'M[R]_(B, m)) :
  Nn.linear l2 (Nn.linear l1 x) = Nn.linear (compose l1 l2) x.
Proof.
rewrite !linearE /= mulmxDl broadcast_mul -mulmxA -trmx_mul.
by rewrite -addrA broadcast_add.
Qed.

(** C1. The forward pass of the four layers equals one affine layer: there
    are a weight matrix W and a bias b, built from the parameters of the
    four layers alone, such that for every batch x (in particular for
    every single input vector) forward(x) = x W^T + b, i.e. W x + b for
    each sample. *)
Theorem forward_is_affine (i h o : nat) (self : Nn.LinearRegression R i h o) :
  exists (W : 'M[R]_(o, i)) (b : 'rV[R]_o),
    [/\ W = Nn.weight (Nn.hidden_to_output self)
            *m Nn.weight (Nn.hidden_layer_2 self)
            *m Nn.weight (Nn.hidden_layer_1 self)
            *m Nn.weight (Nn.input_to_hidden self),
        forall (B : nat) (x : 'M[R]_(B, i)),
          Nn.forward self x = Nn.linear (Nn.MkLinear W b) x
      & forall x : 'rV[R]_i, (Nn.forward self x)^T = W *m x^T + b^T].
Proof.
pose l := compose (Nn.input_to_hidden self)
            (compose (Nn.hidden_layer_1 self)
               (compose (Nn.hidden_layer_2 self) (Nn.hidden_to_output self))).
have Hfwd (B : nat) (x : 'M[R]_(B, i)) : Nn.forward self x = Nn.linear l x.
  by rewrite /Nn.forward /= !linear_compose.
exists (Nn.weight l), (Nn.bias l); split.
- by [].
- by move=> B x; rewrite Hfwd.
- move=> x; rewrite Hfwd linearE linearD /= trmx_mul trmxK; congr (_ + _).
  by apply/matrixP => a c; rewrite !mxE !ord1.
Qed.

End ForwardFacts.

(* ===================================================================== *)
(* Part III. Further properties of the script                             *)
(* ===================================================================== *)

(* --------------------------------------------------------------------- *)
(* Data.__getitem__ outside 0 <= index < len                              *)
(* --------------------------------------------------------------------- *)

Section GetItemEdges.

Variable A : Type.

Lemma getitem_negative (x0 : A) (t : seq A) (index : Z) :
  (- Z.of_nat (size t) <= index < 0)%Z ->
  Py.getitem t index
  = Py.Ok (nth x0 t (Z.to_nat (index + Z.of_nat (size t)))).
Proof.
move=> [Hlo Hhi]; rewrite /Py.getitem.
have -> : (index <? 0)%Z = true by apply/Z.ltb_lt.
have -> : (0 <=? index + Z.of_nat (size t))%Z = true by apply/Z.leb_le; lia.
have -> : (index + Z.of_nat (size t) <? Z.of_nat (size t))%Z = true.
  by apply/Z.ltb_lt; lia.
rewrite /= (ohead_drop x0) //.
by apply/ltP; lia.
Qed.


End GetItemEdges.

Section DataIndexFacts.

Variables F64 F32 : Type.
Variable astype_float32 : F64 -> F32.

Notation init := (DataSet.__init__ astype_float32).
Notation cast_row := (map astype_float32).

(** X1. A negative index -len <= index < 0 is accepted by __getitem__ and
    counts from the end of each tensor separately: the features come from
    row index + len(X), the target from row index + len(y).  The two are
    the same row exactly when X and y have the same number of rows. *)
Theorem data_getitem_negative (X0 y0 : DataSet.ndarray F64) (index : Z) :
  size X0 <= size y0 ->
  (- DataSet.__len__ (init X0 y0) <= index < 0)%Z ->
  DataSet.__getitem__ (init X0 y0) index
  = Py.Ok (cast_row (nth [::] X0 (Z.to_nat (index + Z.of_nat (size X0)))),
           cast_row (nth [::] y0 (Z.to_nat (index + Z.of_nat (size y0))))).
Proof.
move=> /leP Hrows; rewrite len_init => Hidx.
have Hxy : (Z.of_nat (size X0) <= Z.of_nat (size y0))%Z by exact/Nat2Z.inj_le.
rewrite /DataSet.__getitem__ /= /DataSet.from_numpy_float32.
rewrite (getitem_negative [::]); first by rewrite size_map.
rewrite (getitem_negative [::]) /=; first by rewrite size_map; lia.
rewrite !size_map (nth_map [::]); first by apply/ltP; lia.
by rewrite (nth_map [::]) //; apply/ltP; lia.
Qed.


End DataIndexFacts.

Lemma data_getitem_negative_witness :
  DataSet.__getitem__ (DataSet.__init__ (fun v : nat => v.+1)
                     [:: [:: 1; 2]; [:: 3; 4]] [:: [:: 5]; [:: 6]; [:: 7]])
                  (-1)
  = Py.Ok ([:: 4; 5], [:: 8]).
Proof.
apply: (@data_getitem_negative nat nat (fun v => v.+1)
          [:: [:: 1; 2]; [:: 3; 4]] [:: [:: 5]; [:: 6]; [:: 7]] (-1)%Z).
- by [].
- by vm_compute; split.
Defined.


(* --------------------------------------------------------------------- *)
(* The training loop for other epoch counts and loaders                   *)
(* --------------------------------------------------------------------- *)

Section DivisionFacts.

(* Counting the multiples of d among 1, ..., n, one number at a time. *)
Lemma div_succ (n d : Z) :
  (0 <= n)%Z -> (0 < d)%Z ->
  ((n + 1) / d = n / d + (if ((n + 1) mod d =? 0)%Z then 1 else 0))%Z.
Proof.
move=> Hn Hd.
have Hq := Z.div_mod n d (Z.neq_sym _ _ (Z.lt_neq _ _ Hd)).
have [Hr0 Hr1] := Z.mod_pos_bound n d Hd.
case: (Z.eq_dec (n mod d) (d - 1)) => Hr.
- have Hm : ((n + 1) mod d = 0)%Z.
    by symmetry; apply: (Z.mod_unique _ _ (n / d + 1)); [left; lia | lia].
  rewrite Hm /=; symmetry.
  by apply: (Z.div_unique _ _ _ 0); [left; lia | lia].
- have Hm : ((n + 1) mod d = n mod d + 1)%Z.
    by symmetry; apply: (Z.mod_unique _ _ (n / d)); [left; lia | lia].
  rewrite Hm.
  have -> : (n mod d + 1 =? 0)%Z = false by apply/Z.eqb_neq; lia.
  rewrite Z.add_0_r; symmetry.
  by apply: (Z.div_unique _ _ _ (n mod d + 1)); [left; lia | lia].
Qed.

Lemma count_multiples (d : Z) (n : nat) :
  (0 < d)%Z ->
  Z.of_nat (count (fun e => ((e + 1) mod d =? 0)%Z)
                  [seq Z.of_nat k | k <- iota 0 n])
  = (Z.of_nat n / d)%Z.
Proof.
move=> Hd; elim: n => [|n IH]; first by rewrite /= Z.div_0_l //; lia.
rewrite Nat2Z.inj_succ -Z.add_1_r (div_succ (Nat2Z.is_nonneg n) Hd) -IH.
rewrite -addn1 iotaD add0n map_cat count_cat /= addn0 Nat2Z.inj_add.
by case: (_ =? _)%Z.
Qed.

End DivisionFacts.

Section TrainingEdgeFacts.

Variables Model Batch Num : Type.
Variable zero : Num.
Variable add : Num -> Num -> Num.
Variable div_int : Num -> Z -> Num.
Variable train_step : Model -> Batch -> Model * Num.
Variable trainloader : Z -> seq Batch.

Notation state := (Training.state Model Num).
Notation epoch_body :=
  (Training.epoch_body zero add div_int train_step trainloader).
Notation train := (Training.train zero add div_int train_step trainloader).

Lemma range_pos (n : Z) :
  (0 < n)%Z ->
  Py.range n = 0%Z :: [seq Z.of_nat k | k <- iota 1 (Z.to_nat n).-1].
Proof.
move=> Hn; rewrite /Py.range.
by case E: (Z.to_nat n) => [|k] //; lia.
Qed.

(** X3. With 0 < epochs < 10 the run stops in its first epoch: the batches
    of epoch 0 are processed, then the test of the `if` divides by
    epochs // 10 = 0 and ZeroDivisionError ends the script, whatever the
    loader yields. *)
Theorem train_few_epochs (epochs : Z) (m0 : Model) :
  (0 < epochs < 10)%Z ->
  train epochs m0 = Py.Raise Py.ZeroDivisionError.
Proof.
move=> [Hlo Hhi].
rewrite /Training.train range_pos //= /Training.epoch_body.
case: (Training.run_batches _ _ _ _ _ _) => [[m i1] rl].
by rewrite report_condition_zero //; apply: Z.div_small; lia.
Qed.

(** X4. With epochs <= 0 the loop body never runs: no batch is processed,
    nothing is printed, the parameters are the initial ones and i stays
    unbound; in particular epochs = 0 does not raise, although
    epochs // 10 is 0. *)
Theorem train_no_epochs (epochs : Z) (m0 : Model) :
  (epochs <= 0)%Z ->
  train epochs m0 = Py.Ok (Training.State m0 None [::]).
Proof.
move=> Hle; rewrite /Training.train /Py.range.
by have -> : Z.to_nat epochs = 0 by lia.
Qed.

(* While no batch was ever seen, i stays unbound, and the first epoch that
   reports fails on it. *)
Lemma for_each_unbound (epochs : Z) (es : seq Z) (m : Model)
    (c : seq (Training.line Num)) :
  (epochs / 10 <> 0)%Z ->
  all (fun e => nilp (trainloader e)) es ->
  Training.for_each (epoch_body epochs) (Training.State m None c) es
  = if has (reports epochs) es then Py.Raise Py.NameError
    else Py.Ok (Training.State m None c).
Proof.
move=> Hd; elim: es => [|e es IH] //= /andP [/nilP He Hes].
rewrite /Training.epoch_body He /= report_condition_nonzero //=.
rewrite -/(reports epochs e).
by case: (reports epochs e) => //=; exact: IH.
Qed.

(** X5. With epochs >= 10 and a loader that never yields a batch, the run
    ends with NameError: at the first reporting epoch the print reads the
    loop variable i, which no iteration has bound. *)
Theorem train_without_batches (epochs : Z) (m0 : Model) :
  (10 <= epochs)%Z ->
  (forall e, trainloader e = [::]) ->
  train epochs m0 = Py.Raise Py.NameError.
Proof.
move=> Hge Hempty.
have Hd1 : (1 <= epochs / 10)%Z.
  by apply: Z.div_le_lower_bound; lia.
have Hd2 : (epochs / 10 <= epochs)%Z.
  by apply: Z.div_le_upper_bound; lia.
have Hd : (epochs / 10 <> 0)%Z by lia.
have Hall : all (fun e => nilp (trainloader e)) (Py.range epochs).
  by elim: (Py.range epochs) => //= e es ->; rewrite Hempty.
rewrite /Training.train (for_each_unbound _ _ Hd Hall).
have -> // : has (reports epochs) (Py.range epochs).
rewrite /Py.range has_map; apply/hasP.
exists (Z.to_nat (epochs / 10 - 1)).
  by rewrite mem_iota add0n; apply/andP; split=> //; apply/ltP; lia.
rewrite /= /reports Z2Nat.id; first by lia.
by rewrite Z.sub_add Z_mod_same_full.
Qed.

(** X6. For every epochs >= 10 and a loader that yields at least one batch
    in each epoch, the run ends normally and the number of lines printed
    is epochs // (epochs // 10).  That is never below ten, and is ten only
    when epochs < 11 * (epochs // 10), as for 1000; for epochs = 19 it is
    nineteen. *)
Theorem progress_line_count (epochs : Z) (m0 : Model) :
  (10 <= epochs)%Z ->
  all (fun e => ~~ nilp (trainloader e)) (Py.range epochs) ->
  exists2 st : state,
    train epochs m0 = Py.Ok st
    & Z.of_nat (size (Training.console st)) = (epochs / (epochs / 10))%Z
      /\ (10 <= epochs / (epochs / 10))%Z.
Proof.
move=> Hge Hload.
have Hd1 : (1 <= epochs / 10)%Z.
  by apply: Z.div_le_lower_bound; lia.
have Hd : (epochs / 10 <> 0)%Z by lia.
have [st Hrun Hst] :=
  @for_each_console _ _ _ zero add div_int train_step trainloader epochs _
    (Training.State m0 None [::]) Hd Hload.
exists st => //; split; last first.
  apply: Z.div_le_lower_bound; first by lia.
  by have := Z.mul_div_le epochs 10; lia.
have := congr1 size Hst.
rewrite !size_map /= size_filter /Py.range => ->.
have Hpos : (0 < epochs / 10)%Z by lia.
rewrite [LHS](@count_multiples (epochs / 10) (Z.to_nat epochs) Hpos).
by rewrite Z2Nat.id; first by lia.
Qed.

End TrainingEdgeFacts.

Lemma train_few_epochs_witness :
  Training.train 0%Z Z.add Z.div (fun (m : unit) (b : Z) => (m, b))
    (fun _ => [:: 3%Z; 5%Z]) 5 tt
  = Py.Raise Py.ZeroDivisionError.
Proof.
apply: (@train_few_epochs unit Z Z 0%Z Z.add Z.div (fun m b => (m, b))
          (fun _ => [:: 3%Z; 5%Z]) 5%Z tt).
by split.
Defined.

Lemma train_no_epochs_witness :
  Training.train 0%Z Z.add Z.div (fun (m : unit) (b : Z) => (m, b))
    (fun _ => [:: 3%Z; 5%Z]) 0 tt
  = Py.Ok (Training.State tt None [::]).
Proof.
apply: (@train_no_epochs unit Z Z 0%Z Z.add Z.div (fun m b => (m, b))
          (fun _ => [:: 3%Z; 5%Z]) 0%Z tt).
by [].
Defined.

Lemma train_without_batches_witness :
  Training.train 0%Z Z.add Z.div (fun (m : unit) (b : Z) => (m, b))
    (fun _ => [::]) Config.epochs tt
  = Py.Raise Py.NameError.
Proof.
apply: (@train_without_batches unit Z Z 0%Z Z.add Z.div (fun m b => (m, b))
          (fun _ => [::]) Config.epochs tt).
- by [].
- by [].
Defined.

Lemma progress_line_count_witness :
  exists2 st : Training.state unit Z,
    Training.train 0%Z Z.add Z.div (fun m b => (m, b)) (fun _ => [:: 3%Z; 5%Z])
      19 tt = Py.Ok st
    & Z.of_nat (size (Training.console st)) = 19%Z.
Proof.
have Hge : (10 <= 19)%Z by [].
have Hload : all (fun e : Z => ~~ nilp [:: 3%Z; 5%Z]) (Py.range 19) by [].
have [st Hrun [Hsize _]] :=
  @progress_line_count unit Z Z 0%Z Z.add Z.div (fun m b => (m, b))
    (fun _ => [:: 3%Z; 5%Z]) 19%Z tt Hge Hload.
by exists st.
Defined.

(* --------------------------------------------------------------------- *)
(* The forward pass on a batch                                            *)
(* --------------------------------------------------------------------- *)

Section ForwardBatchFacts.

Import GRing.Theory.

Variable R : comNzRingType.

Local Open Scope ring_scope.

Lemma linear_row (m n : nat) (l : Nn.Linear R m n) (B : nat)
    (x : 'M[R]_(B, m)) (k : 'I_B) :
  row k (Nn.linear l x) = Nn.linear l (row k x).
Proof.
apply/rowP => c; rewrite /Nn.linear !mxE; congr (_ + _).
by apply: eq_bigr => t _; rewrite !mxE.
Qed.

(** X7. The samples of a batch do not influence each other: row k of the
    output for a batch is the output for row k alone, so the forward pass
    on a batch is the forward pass on each of its samples. *)
Theorem forward_rowwise (i h o : nat) (self : Nn.LinearRegression R i h o)
    (B : nat) (x : 'M[R]_(B, i)) (k : 'I_B) :
  row k (Nn.forward self x) = Nn.forward self (row k x).
Proof. by rewrite /Nn.forward /= !linear_row. Qed.

End ForwardBatchFacts.

(* --------------------------------------------------------------------- *)
(* More on the scaler                                                     *)
(* --------------------------------------------------------------------- *)

Section ScalerMoreFacts.

Import Order.TTheory GRing.Theory Num.Theory.

Variable F : realFieldType.

Local Open Scope ring_scope.

Notation fit_rows := (@MinMaxScaler.fit_rows F).
Notation transform := (@MinMaxScaler.transform F).
Notation inverse_transform := (@MinMaxScaler.inverse_transform F).

Lemma column_min_attained (n d : nat) (X : 'M[F]_(n.+1, d)) (j : 'I_d) :
  exists i, X i j = MinMaxScaler.column_min X 0 j.
Proof.
case: (arg_minP (fun i => X i j) (erefl (xpredT (@ord0 n)))) => i0 _ Hmin.
exists i0; apply/le_anti; rewrite column_min_le andbT.
rewrite /MinMaxScaler.column_min mxE.
by apply: le_bigmin => [|i _]; exact: Hmin.
Qed.



(** X9. A constant column is scaled to 0 throughout: its range is zero, the
    scaler divides by 1 instead, and every entry minus the minimum is 0. *)
Theorem constant_column_scaled_to_zero (n d : nat) (X : 'M[F]_(n.+1, d))
    (j : 'I_d) :
  (forall i, X i j = X ord0 j) ->
  forall i, transform (fit_rows X) X i j = 0.
Proof.
move=> Hconst i; rewrite transform_fit.
have [i0 <-] := column_min_attained X j.
by rewrite Hconst (Hconst i0) subrr mul0r.
Qed.

(** X10. The round trip also holds in the other direction, the one the
    evaluation loop relies on when it inverse-transforms predictions:
    transforming an inverse-transformed array gives the array back. *)
Theorem transform_inverse_transform (n d k : nat) (X : 'M[F]_(n.+1, d))
    (Y : 'M[F]_(k, d)) :
  transform (fit_rows X) (inverse_transform (fit_rows X) Y) = Y.
Proof.
have Hs := scale_neq0 X.
move: (fit_rows X) Hs => s Hs.
by apply/matrixP => i j; rewrite !mxE divfK // subrK.
Qed.

Lemma scale_ge0 (n d : nat) (X : 'M[F]_(n.+1, d)) (j : 'I_d) :
  0 <= MinMaxScaler.scale_ (fit_rows X) 0 j.
Proof.
rewrite scale_fit invr_ge0 /MinMaxScaler.handle_zeros_in_scale.
case: (eqVneq _ 0) => // _.
by rewrite subr_ge0 (le_trans (column_min_le X ord0 j)) // column_max_ge.
Qed.

(** X11. Scaling keeps the order within a column, also for data the scaler
    was not fitted on: a larger entry is scaled to a larger or equal
    value. *)
Theorem transform_monotone (n d k : nat) (X : 'M[F]_(n.+1, d))
    (Y : 'M[F]_(k, d)) (i i' : 'I_k) (j : 'I_d) :
  Y i j <= Y i' j ->
  transform (fit_rows X) Y i j <= transform (fit_rows X) Y i' j.
Proof.
move=> Hle; have Hs := scale_ge0 X j.
move: (fit_rows X) Hs => s Hs.
by rewrite !mxE lerD2r ler_wpM2r.
Qed.

End ScalerMoreFacts.

Section ScalerExamples.

Local Open Scope ring_scope.

(* A column of two rows, 0 and 1, over the rationals. *)
Definition two_rows : 'M[rat]_(2, 1) := \matrix_(i, j) (i : nat)%:R.

(* A constant column of two rows. *)
Definition constant_rows : 'M[rat]_(2, 1) := const_mx 3%:R.

Lemma constant_column_scaled_to_zero_witness :
  MinMaxScaler.transform (MinMaxScaler.fit_rows constant_rows) constant_rows
    ord0 ord0 = 0.
Proof.
apply: (@constant_column_scaled_to_zero _ 1 1 constant_rows ord0).
by move=> i; rewrite !mxE.
Defined.

Lemma transform_monotone_witness :
  MinMaxScaler.transform (MinMaxScaler.fit_rows two_rows) two_rows ord0 ord0
  <= MinMaxScaler.transform (MinMaxScaler.fit_rows two_rows) two_rows
       ord_max ord0.
Proof.
apply: (@transform_monotone _ 1 1 2 two_rows two_rows ord0 ord_max ord0).
by rewrite !mxE.
Defined.

End ScalerExamples.

(* --------------------------------------------------------------------- *)
(* The evaluation loop                                                    *)
(* --------------------------------------------------------------------- *)

Section EvalFacts.

Import Order.TTheory GRing.Theory Num.Theory.

Variable F : realFieldType.

Local Open Scope ring_scope.

Notation fit_rows := (@MinMaxScaler.fit_rows F).
Notation inverse_transform := (@MinMaxScaler.inverse_transform F).

Lemma mse_loss_ge0 (n d : nat) (a b : 'M[F]_(n, d)) :
  0 <= Evaluation.mse_loss a b.
Proof.
rewrite /Evaluation.mse_loss; apply: divr_ge0; last exact: ler0n.
by apply: sumr_ge0 => i _; apply: sumr_ge0 => j _; exact: sqr_ge0.
Qed.

(** X12. In exact arithmetic the figure printed after the evaluation loop
    is never negative, whatever the parameters of the network, the scaler
    and the batches: every batch adds a mean of squares to a sum that
    starts at 0, and the sum is divided by the number of batches. *)
Theorem reported_mse_ge0 (i h : nat) (net : Nn.LinearRegression F i h 1)
    (y_scaler : MinMaxScaler.t F 1) (testloader : seq (Evaluation.batch F i)) :
  0 <= Evaluation.reported_mse net y_scaler testloader.
Proof.
rewrite /Evaluation.reported_mse; apply: divr_ge0; last exact: ler0n.
rewrite /Evaluation.accumulated_loss; set f := (X in foldl X).
suff H acc : 0 <= acc -> 0 <= foldl f acc testloader by exact: H.
elim: testloader acc => [|b bs IH] acc Hacc //=.
by apply: IH; apply: addr_ge0 => //; exact: mse_loss_ge0.
Qed.

Lemma inverse_transform_sub (d k : nat) (s : MinMaxScaler.t F d)
    (p l : 'M[F]_(k, d)) (a : 'I_k) (j : 'I_d) :
  inverse_transform s p a j - inverse_transform s l a j
  = (p a j - l a j) / MinMaxScaler.scale_ s 0 j.
Proof. by rewrite !mxE -mulrBl opprB subrKA. Qed.

(** X13. Inverse-transforming predictions and labels before the loss only
    rescales it: the mean squared error in the original units is the mean
    squared error of the scaled values times the square of the target
    range (times 1 for a constant target).  The offset of the scaler
    cancels. *)
Theorem mse_loss_unscaled (n B : nat) (y : 'M[F]_(n.+1, 1))
    (p l : 'M[F]_(B, 1)) :
  Evaluation.mse_loss (inverse_transform (fit_rows y) p)
                      (inverse_transform (fit_rows y) l)
  = Evaluation.mse_loss p l
    * (MinMaxScaler.handle_zeros_in_scale
         (MinMaxScaler.column_max y 0 0 - MinMaxScaler.column_min y 0 0)) ^+ 2.
Proof.
rewrite /Evaluation.mse_loss [RHS]mulrAC; congr (_ / _).
rewrite mulr_suml; apply: eq_bigr => a _.
rewrite mulr_suml; apply: eq_bigr => j _.
by rewrite inverse_transform_sub exprMn [j]ord1 scale_fit invrK.
Qed.

End EvalFacts.

(* --------------------------------------------------------------------- *)
(* Mini-batches                                                           *)
(* --------------------------------------------------------------------- *)

Section BatchFacts.

(* The loop of the batch sampler, from any intermediate state. *)
Definition sampler_step (batch_size : nat) (acc : seq (seq Z) * seq Z)
    (idx : Z) : seq (seq Z) * seq Z :=
  let '(batches, batch) := acc in
  let batch := rcons batch idx in
  if size batch == batch_size then (rcons batches batch, [::])
  else (batches, batch).

Lemma batch_samplerE (batch_size : nat) (sampler : seq Z) :
  DataLoader.batch_sampler batch_size sampler
  = let '(batches, batch) :=
      foldl (sampler_step batch_size) ([::], [::]) sampler in
    if batch is [::] then batches else rcons batches batch.
Proof. by []. Qed.

Lemma sampler_loop (bs : nat) (s : seq Z) (done : seq (seq Z)) (cur : seq Z) :
  size cur < bs ->
  let r := foldl (sampler_step bs) (done, cur) s in
  [/\ flatten r.1 ++ r.2 = flatten done ++ cur ++ s,
      shape r.1 = shape done ++ nseq ((size cur + size s) %/ bs) bs
    & size r.2 = (size cur + size s) %% bs].
Proof.
elim: s done cur => [|x s IH] done cur Hcur /=.
  by rewrite addn0 divn_small // modn_small //= !cats0.
have Hbs : 0 < bs by exact: leq_ltn_trans Hcur.
rewrite size_rcons; case: eqP => Hfull.
- have [H1 H2 H3] := IH (rcons done (rcons cur x)) [::] Hbs.
  split.
  + by rewrite H1 /= flatten_rcons -catA cat_rcons.
  + rewrite H2 /shape map_rcons size_rcons Hfull -cats1 -catA /= add0n.
    by rewrite addnS -addSn Hfull divnDl ?dvdnn // divnn Hbs.
  + by rewrite H3 /= add0n addnS -addSn Hfull modnDl.
- have Hlt : size (rcons cur x) < bs.
    by rewrite size_rcons ltn_neqAle Hcur andbT; apply/eqP.
  have [H1 H2 H3] := IH done (rcons cur x) Hlt.
  split.
  + by rewrite H1 cat_rcons.
  + by rewrite H2 size_rcons addnS addSn.
  + by rewrite H3 size_rcons addnS addSn.
Qed.

Lemma flatten_batch_sampler (batch_size : nat) (sampler : seq Z) :
  0 < batch_size ->
  flatten (DataLoader.batch_sampler batch_size sampler) = sampler.
Proof.
move=> Hbs; rewrite batch_samplerE.
have /= := @sampler_loop batch_size sampler [::] [::] Hbs.
case: (foldl _ _ _) => batches batch /= [H1 _ _].
case: batch H1 => [|x batch]; first by rewrite cats0.
by rewrite flatten_rcons.
Qed.

Lemma shape_batch_sampler (batch_size : nat) (sampler : seq Z) :
  0 < batch_size ->
  shape (DataLoader.batch_sampler batch_size sampler)
  = nseq (size sampler %/ batch_size) batch_size
    ++ (if size sampler %% batch_size is 0 then [::]
        else [:: size sampler %% batch_size]).
Proof.
move=> Hbs; rewrite batch_samplerE.
have /= := @sampler_loop batch_size sampler [::] [::] Hbs.
case: (foldl _ _ _) => batches batch /= [_ H2 H3].
rewrite add0n in H2 H3; rewrite -H3 -H2.
case: batch {H3} => [|x batch] /=; first by rewrite cats0.
by rewrite /shape map_rcons -cats1.
Qed.

(* The number of batches: the row count divided by the batch size,
   rounded up. *)
Lemma batch_count (batch_size : nat) (sampler : seq Z) :
  0 < batch_size ->
  size (DataLoader.batch_sampler batch_size sampler)
  = size sampler %/ batch_size + (size sampler %% batch_size != 0).
Proof.
move=> Hbs; have Hshape := shape_batch_sampler sampler Hbs.
rewrite -(size_map size) -/(shape _) Hshape size_cat size_nseq.
by case: (size sampler %% batch_size).
Qed.

(** X14. The batches are the sampled indices cut into consecutive groups:
    put together again they give the sampler's sequence, in its order, so
    that no index is lost or repeated; there are len // batch_size batches
    of exactly batch_size indices, followed by one shorter batch of
    len % batch_size indices when that remainder is not zero. *)
Theorem batch_sampler_groups (batch_size : nat) (sampler : seq Z) :
  0 < batch_size ->
  [/\ flatten (DataLoader.batch_sampler batch_size sampler) = sampler,
      shape (DataLoader.batch_sampler batch_size sampler)
      = nseq (size sampler %/ batch_size) batch_size
        ++ (if size sampler %% batch_size is 0 then [::]
            else [:: size sampler %% batch_size])
    & size (DataLoader.batch_sampler batch_size sampler)
      = size sampler %/ batch_size + (size sampler %% batch_size != 0)].
Proof.
move=> Hbs; split.
- exact: flatten_batch_sampler.
- exact: shape_batch_sampler.
- exact: batch_count.
Qed.

(** X15. With the script's batch size of 64, the 670 training rows give 11
    batches per epoch, ten of 64 rows and a last one of 30, and the 330
    test rows give 6 batches, five of 64 rows and a last one of 10,
    whatever order the shuffling draws. *)
Theorem script_batches (sampler : seq Z) :
  (size sampler = 670 ->
   shape (DataLoader.batch_sampler (Z.to_nat Config.batch_size) sampler)
   = nseq 10 64 ++ [:: 30]
   /\ size (DataLoader.batch_sampler (Z.to_nat Config.batch_size) sampler)
      = 11)
  /\ (size sampler = 330 ->
      shape (DataLoader.batch_sampler (Z.to_nat Config.batch_size) sampler)
      = nseq 5 64 ++ [:: 10]
      /\ size (DataLoader.batch_sampler (Z.to_nat Config.batch_size) sampler)
         = 6).
Proof.
have Hbs : 0 < Z.to_nat Config.batch_size by [].
by split=> Hn; rewrite batch_count // shape_batch_sampler // Hn.
Qed.

End BatchFacts.

Section LoaderFacts.

Variables Row Target : Type.
Variable getitem : Z -> Py.result (Row * Target).

Notation fetch := (DataLoader.fetch getitem).
Notation collect := (DataLoader.collect getitem).
Notation iterate := (DataLoader.iterate getitem).

(* The only exception the dataset raises, if any, is IndexError. *)
Definition ok_or_index_error (A : Type) (r : Py.result A) : bool :=
  match r with
  | Py.Ok _ => true
  | Py.Raise Py.IndexError => true
  | Py.Raise _ => false
  end.

Lemma all_flatten (A : Type) (P : pred A) (ss : seq (seq A)) :
  all P (flatten ss) = all (all P) ss.
Proof. by elim: ss => [|s ss IH] //=; rewrite all_cat IH. Qed.

Lemma has_flatten (A : Type) (P : pred A) (ss : seq (seq A)) :
  has P (flatten ss) = has (has P) ss.
Proof. by elim: ss => [|s ss IH] //=; rewrite has_cat IH. Qed.

Lemma fetch_ok (batch : seq Z) :
  all (fun idx => Py.is_ok (getitem idx)) batch ->
  exists2 samples,
    fetch batch = Py.Ok samples
    & [seq Py.Ok sample | sample <- samples] = [seq getitem idx | idx <- batch].
Proof.
elim: batch => [|idx batch IH] /=; first by exists [::].
case E: (getitem idx) => [sample|e] //= /IH [samples -> Hs].
by exists (sample :: samples) => //=; rewrite Hs.
Qed.

Lemma fetch_index_error (batch : seq Z) :
  all (fun idx => ok_or_index_error (getitem idx)) batch ->
  has (fun idx => ~~ Py.is_ok (getitem idx)) batch ->
  fetch batch = Py.Raise Py.IndexError.
Proof.
elim: batch => [|idx batch IH] //=.
case E: (getitem idx) => [sample|e] /=; last by case: e {E}.
by move=> Hall Hhas; rewrite IH.
Qed.

Lemma collect_ok (batches : seq (seq Z)) :
  all (all (fun idx => Py.is_ok (getitem idx))) batches ->
  exists2 out,
    collect batches = Py.Ok out
    & [/\ size out = size batches,
          [seq size b.1 | b <- out] = shape batches
        & [seq Py.Ok sample | sample <- flatten [seq zip b.1 b.2 | b <- out]]
          = [seq getitem idx | idx <- flatten batches]].
Proof.
elim: batches => [|batch batches IH] /=; first by exists [::].
case/andP=> /fetch_ok [samples -> Hs] /IH [out -> [H1 H2 H3]] /=.
exists (DataLoader.collate samples :: out) => //; split=> /=.
- by rewrite H1.
- by rewrite H2 /unzip1 size_map -(size_map Py.Ok) Hs size_map.
- by rewrite zip_unzip !map_cat H3 Hs.
Qed.

Lemma collect_index_error (batches : seq (seq Z)) :
  all (all (fun idx => ok_or_index_error (getitem idx))) batches ->
  has (has (fun idx => ~~ Py.is_ok (getitem idx))) batches ->
  collect batches = Py.Raise Py.IndexError.
Proof.
elim: batches => [|batch batches IH] //= /andP [Hb Hbs].
case Hbad: (has _ batch) => /=; first by rewrite fetch_index_error.
move=> Hrest.
have Hok : all (fun idx => Py.is_ok (getitem idx)) batch.
  by elim: (batch) Hbad => [|idx b IHb] //=; case: (Py.is_ok _).
by have [samples -> _] := fetch_ok Hok; rewrite /= IH.
Qed.

(** X16. When dataset[idx] succeeds for every sampled index, one pass over
    the loader succeeds; it yields as many batches as the batch sampler
    formed, rows // batch_size rounded up, each with one row per index of
    its group, and the samples of all batches, read in order, are exactly
    dataset[idx] for the sampled indices in the sampler's order. *)
Theorem iterate_ok (batch_size : nat) (sampler : seq Z) :
  0 < batch_size ->
  all (fun idx => Py.is_ok (getitem idx)) sampler ->
  exists2 out,
    iterate batch_size sampler = Py.Ok out
    & [/\ size out
          = size sampler %/ batch_size + (size sampler %% batch_size != 0),
          [seq size b.1 | b <- out]
          = shape (DataLoader.batch_sampler batch_size sampler)
        & [seq Py.Ok sample | sample <- flatten [seq zip b.1 b.2 | b <- out]]
          = [seq getitem idx | idx <- sampler]].
Proof.
move=> Hbs Hall; rewrite /DataLoader.iterate.
have Hfl := flatten_batch_sampler sampler Hbs.
have Hall' :
  all (all (fun idx => Py.is_ok (getitem idx)))
      (DataLoader.batch_sampler batch_size sampler).
  by rewrite -all_flatten Hfl.
have [out Hout [H1 H2 H3]] := collect_ok Hall'.
exists out => //; split=> //.
- by rewrite H1 batch_count.
- by rewrite H3 Hfl.
Qed.

(** X17. When dataset[idx] can only fail with IndexError and does fail for
    some sampled index, the pass over the loader ends with IndexError. *)
Theorem iterate_index_error (batch_size : nat) (sampler : seq Z) :
  0 < batch_size ->
  all (fun idx => ok_or_index_error (getitem idx)) sampler ->
  has (fun idx => ~~ Py.is_ok (getitem idx)) sampler ->
  iterate batch_size sampler = Py.Raise Py.IndexError.
Proof.
move=> Hbs Hall Hhas; rewrite /DataLoader.iterate.
have Hfl := flatten_batch_sampler sampler Hbs.
by apply: collect_index_error; rewrite -?all_flatten -?has_flatten Hfl.
Qed.

End LoaderFacts.

Lemma batch_sampler_groups_witness :
  flatten (DataLoader.batch_sampler 2 [:: 4; 0; 3; 1; 2]%Z)
  = [:: 4; 0; 3; 1; 2]%Z
  /\ size (DataLoader.batch_sampler 2 [:: 4; 0; 3; 1; 2]%Z) = 3.
Proof.
have H : 0 < 2 by [].
by have [H1 _ H3] := @batch_sampler_groups 2 [:: 4; 0; 3; 1; 2]%Z H.
Defined.

Lemma script_batches_witness :
  size (DataLoader.batch_sampler (Z.to_nat Config.batch_size)
          (Py.range 670)) = 11.
Proof.
have [H _] := script_batches (Py.range 670).
have Hn : size (Py.range 670) = 670 by [].
by have [_ ->] := H Hn.
Defined.

(* --------------------------------------------------------------------- *)
(* The loader over a Data container                                       *)
(* --------------------------------------------------------------------- *)

Section DataLoaderFacts.

Variables F64 F32 : Type.
Variable astype_float32 : F64 -> F32.

Notation init := (DataSet.__init__ astype_float32).
Notation cast_row := (map astype_float32).

(* dataset[idx] for an index in range, as a pair of rows of the arrays. *)
Definition rows_at (X0 y0 : DataSet.ndarray F64) (idx : Z)
  : seq F32 * seq F32 :=
  (cast_row (nth [::] X0 (Z.to_nat idx)), cast_row (nth [::] y0 (Z.to_nat idx))).

Definition in_range (n : nat) (idx : Z) : bool :=
  ((0 <=? idx) && (idx <? Z.of_nat n))%Z.

Lemma getitem_init (X0 y0 : DataSet.ndarray F64) (idx : Z) :
  size X0 <= size y0 -> in_range (size X0) idx ->
  DataSet.__getitem__ (init X0 y0) idx = Py.Ok (rows_at X0 y0 idx).
Proof.
move=> /leP Hrows /andP [/Z.leb_le Hlo /Z.ltb_lt Hhi].
have Hxy : (Z.of_nat (size X0) <= Z.of_nat (size y0))%Z by exact/Nat2Z.inj_le.
rewrite /DataSet.__getitem__ /= /DataSet.from_numpy_float32.
rewrite (getitem_in_range [::]); first by rewrite size_map.
rewrite (getitem_in_range [::]) /=; first by rewrite size_map; lia.
rewrite /rows_at (nth_map [::]); first by apply/ltP; lia.
by rewrite (nth_map [::]) //; apply/ltP; lia.
Qed.




Lemma collect_size (Row Target : Type)
    (getitem : Z -> Py.result (Row * Target)) (batches : seq (seq Z))
    (out : seq (seq Row * seq Target)) :
  DataLoader.collect getitem batches = Py.Ok out -> size out = size batches.
Proof.
elim: batches out => [|b bs IH] out /=; first by case=> <-.
case: (DataLoader.fetch getitem b) => [samples|e] //=.
case E: (DataLoader.collect getitem bs) => [rest|e] //= [<-] /=.
by rewrite (IH rest).
Qed.

(** X18. Over a Data container whose target array has at least as many
    rows as its feature array, a pass of the loader over indices in
    0 <= idx < len succeeds: with the script's batch size it yields
    len // 64 batches rounded up, and the samples of the batches, read in
    order, are the float32 rows of X and y at the sampled indices, each
    feature row paired with the target row of the same index. *)
Theorem data_loader_batches (X0 y0 : DataSet.ndarray F64) (sampler : seq Z) :
  size X0 <= size y0 ->
  all (in_range (size X0)) sampler ->
  exists2 out,
    DataLoader.iterate (DataSet.__getitem__ (init X0 y0))
      (Z.to_nat Config.batch_size) sampler = Py.Ok out
    & size out = size sampler %/ 64 + (size sampler %% 64 != 0)
      /\ flatten [seq zip b.1 b.2 | b <- out]
         = [seq rows_at X0 y0 idx | idx <- sampler].
Proof.
move=> Hrows Hin.
have Hbs : 0 < Z.to_nat Config.batch_size by [].
have Hfl := flatten_batch_sampler sampler Hbs.
have Hget : [seq DataSet.__getitem__ (init X0 y0) idx | idx <- sampler]
            = [seq Py.Ok (rows_at X0 y0 idx) | idx <- sampler].
  elim: sampler Hin {Hfl} => [|idx s IH] //= /andP [Hidx Hs].
  by rewrite getitem_init // IH.
have Hok : all (fun idx => Py.is_ok (DataSet.__getitem__ (init X0 y0) idx))
               sampler.
  elim: sampler Hin {Hfl Hget} => [|idx s IH] //= /andP [Hidx Hs].
  by rewrite getitem_init // IH.
have Hall :
  all (all (fun idx => Py.is_ok (DataSet.__getitem__ (init X0 y0) idx)))
      (DataLoader.batch_sampler (Z.to_nat Config.batch_size) sampler).
  by rewrite -all_flatten Hfl.
have [out Hout [H1 _ H3]] := collect_ok Hall.
exists out => //; split; first by rewrite H1 batch_count.
have Hinj : injective (@Py.Ok (seq F32 * seq F32)) by move=> a b [].
by apply: (inj_map Hinj); rewrite H3 Hfl Hget -map_comp.
Qed.


End DataLoaderFacts.

Lemma iterate_ok_witness :
  exists2 out,
    DataLoader.iterate (fun idx : Z => Py.Ok (idx, (idx + 1)%Z)) 2
      [:: 4; 0; 3]%Z = Py.Ok out
    & size out = 2.
Proof.
have Hbs : 0 < 2 by [].
have Hall : all (fun idx : Z => Py.is_ok (Py.Ok (idx, (idx + 1)%Z)))
                [:: 4; 0; 3]%Z by [].
have [out Hout [Hsize _ _]] :=
  @iterate_ok Z Z (fun idx => Py.Ok (idx, (idx + 1)%Z)) 2 [:: 4; 0; 3]%Z
    Hbs Hall.
by exists out.
Defined.

Lemma iterate_index_error_witness :
  DataLoader.iterate
    (fun idx : Z => if (idx <? 2)%Z then Py.Ok (idx, idx)
                    else Py.Raise Py.IndexError)
    2 [:: 0; 2; 1]%Z
  = Py.Raise Py.IndexError.
Proof.
apply: (@iterate_index_error Z Z
          (fun idx : Z => if (idx <? 2)%Z then Py.Ok (idx, idx)
                          else Py.Raise Py.IndexError)
          2 [:: 0; 2; 1]%Z).
- by [].
- by [].
- by [].
Defined.

Lemma data_loader_batches_witness :
  exists2 out,
    DataLoader.iterate
      (DataSet.__getitem__
         (DataSet.__init__ (fun v : nat => v.+1)
            [:: [:: 1]; [:: 2]; [:: 3]] [:: [:: 5]; [:: 6]; [:: 7]]))
      (Z.to_nat Config.batch_size) [:: 2; 0; 1]%Z = Py.Ok out
    & flatten [seq zip b.1 b.2 | b <- out]
      = [:: ([:: 4], [:: 8]); ([:: 2], [:: 6]); ([:: 3], [:: 7])].
Proof.
have Hrows : size [:: [:: 1]; [:: 2]; [:: 3]]
             <= size [:: [:: 5]; [:: 6]; [:: 7]] by [].
have Hin : all (in_range (size [:: [:: 1]; [:: 2]; [:: 3]])) [:: 2; 0; 1]%Z.
  by [].
have [out Hout [_ Hrowsat]] :=
  @data_loader_batches nat nat (fun v => v.+1)
    [:: [:: 1]; [:: 2]; [:: 3]] [:: [:: 5]; [:: 6]; [:: 7]] [:: 2; 0; 1]%Z
    Hrows Hin.
by exists out.
Defined.


(* --------------------------------------------------------------------- *)
(* The progress lines of the script's own loader                          *)
(* --------------------------------------------------------------------- *)

Section ScriptRunFacts.

Variables Row Target : Type.
Variable getitem : Z -> Py.result (Row * Target).

Variables Model Num : Type.
Variable zero : Num.
Variable add : Num -> Num -> Num.
Variable div_int : Num -> Z -> Num.
Variable train_step : Model -> seq Row * seq Target -> Model * Num.
Variable trainloader : Z -> seq (seq Row * seq Target).

Notation train := (Training.train zero add div_int train_step trainloader).

(** X20. When in every epoch the loader hands out the batches of a pass
    over 670 sampled indices with the script's batch size, the ten
    progress lines of the 1000-epoch run all report 11 batches per epoch:
    the console shows (100, 11), (200, 11), ..., (1000, 11). *)
Theorem progress_lines_eleven_batches (m0 : Model) :
  (forall e : Z,
     exists2 sampler : seq Z,
       size sampler = 670
       & DataLoader.iterate getitem (Z.to_nat Config.batch_size) sampler
         = Py.Ok (trainloader e)) ->
  exists2 st : Training.state Model Num,
    train Config.epochs m0 = Py.Ok st
    & [seq header l | l <- Training.console st]
      = [seq (e, 11%Z)
            | e <- [:: 100; 200; 300; 400; 500; 600; 700; 800; 900; 1000]%Z].
Proof.
move=> Hloader.
have Hbs : 0 < Z.to_nat Config.batch_size by [].
have Hsize e : size (trainloader e) = 11.
  have [sampler Hn Hit] := Hloader e.
  by rewrite (collect_size Hit) batch_count // Hn.
have Hload : all (fun e => ~~ nilp (trainloader e)) (Py.range Config.epochs).
  by elim: (Py.range _) => //= e es ->; rewrite /nilp Hsize.
have Hd : (Config.epochs / 10 <> 0)%Z by [].
have [st Hrun Hst] :=
  @for_each_console _ _ _ zero add div_int train_step trainloader
    Config.epochs _ (Training.State m0 None [::]) Hd Hload.
exists st => //; rewrite Hst.
have Hext : (fun e : Z => ((e + 1)%Z, Z.of_nat (size (trainloader e))))
            =1 (fun e : Z => ((e + 1)%Z, 11%Z)).
  by move=> e; rewrite Hsize.
by rewrite (eq_map Hext); vm_compute.
Qed.

End ScriptRunFacts.

Lemma progress_lines_eleven_batches_witness :
  exists2 st : Training.state unit Z,
    Training.train 0%Z Z.add Z.div
      (fun (m : unit) (b : seq Z * seq Z) => (m, 1%Z))
      (fun _ =>
         if DataLoader.iterate (fun idx : Z => Py.Ok (idx, idx))
              (Z.to_nat Config.batch_size) (Py.range 670) is Py.Ok out
         then out else [::])
      Config.epochs tt = Py.Ok st
    & [seq header l | l <- Training.console st]
      = [seq (e, 11%Z)
            | e <- [:: 100; 200; 300; 400; 500; 600; 700; 800; 900; 1000]%Z].
Proof.
apply: (@progress_lines_eleven_batches Z Z (fun idx : Z => Py.Ok (idx, idx))
          unit Z 0%Z Z.add Z.div (fun m b => (m, 1%Z))
          (fun _ =>
             if DataLoader.iterate (fun idx : Z => Py.Ok (idx, idx))
                  (Z.to_nat Config.batch_size) (Py.range 670) is Py.Ok out
             then out else [::]) tt).
by move=> e; exists (Py.range 670) => //; vm_compute.
Defined.

(* --------------------------------------------------------------------- *)
(* From the split to the containers                                       *)
(* --------------------------------------------------------------------- *)

Section PipelineFacts.

Variables F64 F32 : Type.
Variable astype_float32 : F64 -> F32.

Notation init := (DataSet.__init__ astype_float32).

Lemma nth_take_rows (C : Type) (x0 : C) (a : seq C) (idx : seq nat) (k : nat) :
  all (fun i => i < size a) idx -> k < size idx ->
  nth x0 (Split.take_rows a idx) k = nth x0 a (nth 0 idx k).
Proof.
rewrite /Split.take_rows.
elim: idx k => [|i idx IH] k //= /andP [Hi Hidx].
rewrite (ohead_drop x0) //=.
by case: k => [|k] //= Hk; exact: IH.
Qed.

Lemma train_test_split_default (A B : Type) (X : seq A) (y : seq B)
    (perm : seq nat) :
  size X = 1000 -> size y = 1000 ->
  Split.train_test_split perm X y Config.test_size
  = Py.Ok (Split.take_rows X (take 670 (drop 330 perm)),
           Split.take_rows X (take 330 perm),
           Split.take_rows y (take 670 (drop 330 perm)),
           Split.take_rows y (take 330 perm)).
Proof.
move=> HX Hy.
have Sz : Split.split_sizes (Z.of_nat (size X)) Config.test_size
          = Py.Ok (670, 330)%Z by rewrite HX; vm_compute.
by rewrite /Split.train_test_split Sz HX Hy eqxx.
Qed.

(** X21. In the script the two containers are consistent.  For arrays X
    and y of 1000 rows each and whatever permutation the split draws,
    Data(X_train, y_train) has length 670 and Data(X_test, y_test) length
    330, every index below the length is served, and sample k pairs the
    float32 feature row and the float32 target row of one and the same
    original row: row perm[330 + k] for the train part, row perm[k] for
    the test part. *)
Theorem script_containers (X y : DataSet.ndarray F64) (perm : seq nat) :
  size X = 1000 -> size y = 1000 -> perm_eq perm (iota 0 1000) ->
  exists X_train X_test y_train y_test,
    [/\ Split.train_test_split perm X y Config.test_size
        = Py.Ok (X_train, X_test, y_train, y_test),
        DataSet.__len__ (init X_train y_train) = 670%Z
        /\ DataSet.__len__ (init X_test y_test) = 330%Z,
        forall k, k < 670 ->
          DataSet.__getitem__ (init X_train y_train) (Z.of_nat k)
          = Py.Ok (rows_at astype_float32 X y
                     (Z.of_nat (nth 0 perm (330 + k))))
      & forall k, k < 330 ->
          DataSet.__getitem__ (init X_test y_test) (Z.of_nat k)
          = Py.Ok (rows_at astype_float32 X y (Z.of_nat (nth 0 perm k)))].
Proof.
move=> HX Hy Hp.
have Hsz : size perm = 1000 by rewrite (perm_size Hp) size_iota.
have Hall := perm_iota_bound Hp.
have Hte : all (fun k => k < 1000) (take 330 perm).
  by apply/allP => k /mem_take; move/allP: Hall; apply.
have Htr : all (fun k => k < 1000) (take 670 (drop 330 perm)).
  by apply/allP => k /mem_take /mem_drop; move/allP: Hall; apply.
have Sxtr : size (Split.take_rows X (take 670 (drop 330 perm))) = 670.
  by rewrite size_take_rows ?HX // size_take size_drop Hsz.
have Sytr : size (Split.take_rows y (take 670 (drop 330 perm))) = 670.
  by rewrite size_take_rows ?Hy // size_take size_drop Hsz.
have Sxte : size (Split.take_rows X (take 330 perm)) = 330.
  by rewrite size_take_rows ?HX // size_take Hsz.
have Syte : size (Split.take_rows y (take 330 perm)) = 330.
  by rewrite size_take_rows ?Hy // size_take Hsz.
have Hin n k : k < n -> in_range n (Z.of_nat k).
  move=> Hk; rewrite /in_range; apply/andP; split.
    exact/Z.leb_le/Nat2Z.is_nonneg.
  exact/Z.ltb_lt/Nat2Z.inj_lt/ltP.
exists (Split.take_rows X (take 670 (drop 330 perm))),
       (Split.take_rows X (take 330 perm)),
       (Split.take_rows y (take 670 (drop 330 perm))),
       (Split.take_rows y (take 330 perm)).
split; first exact: train_test_split_default.
- by rewrite !len_init Sxtr Sxte.
- move=> k Hk; rewrite getitem_init ?Sxtr ?Sytr ?Hin //.
  rewrite /rows_at !Nat2Z.id.
  have Hks : k < size (take 670 (drop 330 perm)).
    by rewrite size_take size_drop Hsz.
  rewrite !nth_take_rows ?HX ?Hy //.
  by rewrite nth_take // nth_drop.
- move=> k Hk; rewrite getitem_init ?Sxte ?Syte ?Hin //.
  rewrite /rows_at !Nat2Z.id.
  have Hks : k < size (take 330 perm) by rewrite size_take Hsz.
  rewrite !nth_take_rows ?HX ?Hy //.
  by rewrite nth_take.
Qed.

End PipelineFacts.

Lemma script_containers_witness :
  exists X_train X_test y_train y_test,
    Split.train_test_split (iota 0 1000)
      [seq [:: k] | k <- iota 0 1000] [seq [:: k.*2] | k <- iota 0 1000]
      Config.test_size
    = Py.Ok (X_train, X_test, y_train, y_test)
    /\ DataSet.__len__ (DataSet.__init__ (fun v : nat => v) X_train y_train)
       = 670%Z.
Proof.
have HX : size [seq [:: k] | k <- iota 0 1000] = 1000.
  by rewrite size_map size_iota.
have Hy : size [seq [:: k.*2] | k <- iota 0 1000] = 1000.
  by rewrite size_map size_iota.
have [X_train [X_test [y_train [y_test [Hsplit [Hlen _] _ _]]]]] :=
  @script_containers nat nat (fun v => v) _ _ (iota 0 1000) HX Hy
    (perm_refl _).
by exists X_train, X_test, y_train, y_test.
Defined.
